(** * nav2_costmap_2d: the clear-costmap service

    A shallow embedding of [nav2_costmap_2d/src/clear_costmap_service.cpp]
    and the properties of its three clearing operations.

    Conventions of the embedding.
    - A C++ [double] is an exact rational ([Q]); rounding is not modelled.
      Equality of computed coordinates is [Qeq] ([==]). The one computation
      whose exact value matters is repeated in binary64 ([Binary64]).
    - [unsigned char] costs and [int]/[unsigned int] cell counts are [Z].
    - [std::string] is [string]; [std::vector] is [list].
    - The robot pose source, the mutexes and the logger are effects: they
      are threaded through a small state monad over [Runtime]. *)

From Stdlib Require Import List String Ascii Bool Arith ZArith QArith Qround Lia Lqa.
From Stdlib Require PrimFloat.
Import ListNotations.

Local Open Scope string_scope.
Local Open Scope Q_scope.

(** ** std::string helpers used by [getLayerName] *)

Module StdString.

(** [s.rfind(c)]: the index of the last occurrence of [c], [None] standing
    for [std::string::npos]. *)
Fixpoint rfind (c : ascii) (s : string) : option nat :=
  match s with
  | EmptyString => None
  | String a rest =>
      match rfind c rest with
      | Some i => Some (S i)
      | None => if Ascii.eqb a c then Some O else None
      end
  end.

(** [s.substr(pos)] for [pos <= s.size()]: the suffix that starts at [pos].
    ([pos > s.size()] throws in C++; [getLayerName] never reaches it, see
    [rfind_lt].) *)
Fixpoint substr (s : string) (pos : nat) : string :=
  match pos, s with
  | O, _ => s
  | S p, String _ rest => substr rest p
  | S _, EmptyString => EmptyString
  end.

(** [c] occurs in [s]. *)
Fixpoint contains (c : ascii) (s : string) : bool :=
  match s with
  | EmptyString => false
  | String a rest => Ascii.eqb a c || contains c rest
  end.

End StdString.

(** ** Data model *)

(** What the service reads of a [PoseStamped]: the position and the heading
    that [tf2::getYaw] extracts from the orientation. *)
Record PoseStamped : Type := mkPose {
  position_x : Q;
  position_y : Q;
  yaw_of_orientation : Q
}.

(** The [Point] of the service, also standing for
    [geometry_msgs::msg::Point] (whose [z] is never written). *)
Record Point : Type := mkPoint { px : Q; py : Q }.

(** Two points with equal coordinates. *)
Definition Point_eq (p q : Point) : Prop := px p == px q /\ py p == py q.

(** [Costmap2D]: the grid. [costmap_] is the row-major cell array. *)
Record Costmap2D : Type := mkCostmap2D {
  size_x_ : Z;
  size_y_ : Z;
  resolution_ : Q;
  origin_x_ : Q;
  origin_y_ : Q;
  costmap_ : list Z;
  default_value_ : Z
}.

(** [CostmapLayer]: a [Layer] (it has a name) that is also a [Costmap2D]
    (inheritance is written as the field [grid]) and that keeps the extra
    (dirty) bounds. *)
Record CostmapLayer : Type := mkCostmapLayer {
  name_ : string;
  grid : Costmap2D;
  extra_min_x_ : Q;
  extra_min_y_ : Q;
  extra_max_x_ : Q;
  extra_max_y_ : Q
}.

(** [Costmap2DROS]: the master grid ([getCostmap()]) and the ordered layer
    stack ([getLayeredCostmap()->getPlugins()]). The service casts every
    clearable plugin to [CostmapLayer] without a check, so the stack is a
    list of [CostmapLayer]. *)
Record Costmap2DROS : Type := mkCostmap2DROS {
  master : Costmap2D;
  plugins : list CostmapLayer
}.

Definition getName (l : CostmapLayer) : string := name_ l.
Definition getDefaultValue (g : Costmap2D) : Z := default_value_ g.
Definition getOriginX (l : CostmapLayer) : Q := origin_x_ (grid l).
Definition getOriginY (l : CostmapLayer) : Q := origin_y_ (grid l).

Definition set_cells (g : Costmap2D) (cells : list Z) : Costmap2D :=
  mkCostmap2D (size_x_ g) (size_y_ g) (resolution_ g)
              (origin_x_ g) (origin_y_ g) cells (default_value_ g).

Definition set_grid (l : CostmapLayer) (g : Costmap2D) : CostmapLayer :=
  mkCostmapLayer (name_ l) g
                 (extra_min_x_ l) (extra_min_y_ l) (extra_max_x_ l) (extra_max_y_ l).

Definition set_extra_bounds (l : CostmapLayer) (x0 y0 x1 y1 : Q) : CostmapLayer :=
  mkCostmapLayer (name_ l) (grid l) x0 y0 x1 y1.


(** ** Effects: pose source, mutexes, logger *)

Inductive Mutex : Type :=
| MasterMutex
| LayerMutex (layer_name : string).

Inductive Event : Type :=
| Acquire (m : Mutex)
| Release (m : Mutex)
| LogError (msg : string).

(** [pose_source] lists the answers the transform tree will give to the
    coming calls of [getRobotPose], oldest first ([None]: the pose cannot be
    retrieved); [events] is the chronological record of what the service did
    to mutexes and to the logger. *)
Record Runtime : Type := mkRuntime {
  pose_source : list (option PoseStamped);
  events : list Event
}.

Definition M (A : Type) : Type := Runtime -> A * Runtime.

Definition ret {A : Type} (a : A) : M A := fun r => (a, r).

Definition bind {A B : Type} (m : M A) (k : A -> M B) : M B :=
  fun r => let (a, r') := m r in k a r'.

Declare Scope service_scope.
Delimit Scope service_scope with service.
Notation "x <- m ;; k" := (bind m (fun x => k))
  (at level 61, m at next level, right associativity) : service_scope.
Notation "m ;;; k" := (bind m (fun _ => k))
  (at level 61, right associativity) : service_scope.

Definition emit (e : Event) : M unit :=
  fun r => (tt, mkRuntime (pose_source r) (events r ++ [e])).

Definition lock (m : Mutex) : M unit := emit (Acquire m).
Definition unlock (m : Mutex) : M unit := emit (Release m).
Definition RCLCPP_ERROR (msg : string) : M unit := emit (LogError msg).

(** Modelled from the spec: [Costmap2DROS::getRobotPose] is not in this
    file; the spec gives the pose source as [getPose() -> Pose | failure].
    Each call consumes the next answer; a source with no answer left
    fails. *)
Definition getRobotPose : M (option PoseStamped) :=
  fun r =>
    match pose_source r with
    | [] => (None, r)
    | a :: rest => (a, mkRuntime rest (events r))
    end.

(** ** The grid engine: primitives the service calls

    None of these is defined in [clear_costmap_service.cpp]. What the
    specification says of each is written out below; what it leaves to the
    engine (trigonometry, rasterisation of a polygon) is a field of
    [GridEngine]. *)

Class GridEngine : Type := mkGridEngine {
  (** [cos] and [sin] of the math library. *)
  cos : Q -> Q;
  sin : Q -> Q;
  (** Does the polygon, given in cell coordinates, contain cell (mx, my)? *)
  cell_in_polygon : list Point -> Z -> Z -> bool;
  (** Does the polygon, given in world coordinates, contain cell (mx, my)
      of this grid? *)
  cell_in_world_polygon : Costmap2D -> list Point -> Z -> Z -> bool
}.

(** [f] applied to every cell with its index, starting at index [i]. *)
Fixpoint mapi_from {A B : Type} (f : nat -> A -> B) (i : nat) (l : list A) : list B :=
  match l with
  | [] => []
  | a :: rest => f i a :: mapi_from f (S i) rest
  end.

(** Column and row of the cell stored at [index] ([getIndex] inverted:
    [index = my * size_x_ + mx]). *)
Definition indexToCells (g : Costmap2D) (index : nat) : Z * Z :=
  ((Z.of_nat index mod size_x_ g)%Z, (Z.of_nat index / size_x_ g)%Z).

(** Modelled from the spec: the size in meters of a grid of [size_x_] by
    [size_y_] cells of side [resolution_] ([getSizeInMetersX],
    [getSizeInMetersY] are not in this file). *)
Definition getSizeInMetersX (l : CostmapLayer) : Q :=
  inject_Z (size_x_ (grid l)) * resolution_ (grid l).

Definition getSizeInMetersY (l : CostmapLayer) : Q :=
  inject_Z (size_y_ (grid l)) * resolution_ (grid l).


(** One axis of the clamped conversion: [n] cells of side [res] from [o]. *)
Definition clampAxis (o res : Q) (n : Z) (w : Q) : Z :=
  if Qle_bool o w then
    if Qle_bool (o + inject_Z n * res) w then (n - 1)%Z
    else Qfloor ((w - o) / res)
  else 0%Z.

(** Modelled from the spec: [Costmap2D::worldToMapEnforceBounds] is not in
    this file. It "converts using origin and resolution; if the point falls
    outside [origin, origin+size), clamps to the nearest boundary cell
    rather than failing". *)
Definition worldToMapEnforceBounds (l : CostmapLayer) (wx wy : Q) : Z * Z :=
  (clampAxis (origin_x_ (grid l)) (resolution_ (grid l)) (size_x_ (grid l)) wx,
   clampAxis (origin_y_ (grid l)) (resolution_ (grid l)) (size_y_ (grid l)) wy).

(** [std::min] and [std::max] on doubles. *)
Definition fmin (a b : Q) : Q := if Qle_bool a b then a else b.
Definition fmax (a b : Q) : Q := if Qle_bool b a then a else b.

(** Modelled from the spec: [CostmapLayer::addExtraBounds] is not in this
    file. It "extends a layer's tracked dirty rectangle to the union of its
    current value and" the rectangle given; dirty bounds "grow
    monotonically via union". *)
Definition addExtraBounds (mx0 my0 mx1 my1 : Q) (l : CostmapLayer) : CostmapLayer :=
  set_extra_bounds l
    (fmin mx0 (extra_min_x_ l)) (fmin my0 (extra_min_y_ l))
    (fmax mx1 (extra_max_x_ l)) (fmax my1 (extra_max_y_ l)).

Section Engine.

Context {engine : GridEngine}.

(** Modelled from the spec: [rotatePoint] is declared outside this file.
    "Standard 2D rotation of each corner about the pivot (pose.x, pose.y)
    by angle yaw (counter-clockwise positive)." *)
Definition rotatePoint (cx cy angle : Q) (p : Point) : Point :=
  mkPoint (cx + (px p - cx) * cos angle - (py p - cy) * sin angle)
          (cy + (px p - cx) * sin angle + (py p - cy) * cos angle).

(** Modelled from the spec: [CostmapLayer::clearArea] (the variant that
    takes the polygon's corners in cell coordinates) is not in this file.
    The region is preserved and "only the complement of the polygon" is
    reset, to the layer's default value. *)
Definition clearArea (polygon : list Point) (l : CostmapLayer) : CostmapLayer :=
  let g := grid l in
  set_grid l
    (set_cells g
       (mapi_from
          (fun i c =>
             let (mx, my) := indexToCells g i in
             if cell_in_polygon polygon mx my then c else default_value_ g)
          0 (costmap_ g))).

(** Modelled from the spec: [Costmap2D::setConvexPolygonCost] is not in
    this file. It is the "primitive that sets all cells enclosed by a
    polygon to a given value"; the polygon is in world coordinates. *)
Definition setConvexPolygonCost (polygon : list Point) (cost_value : Z)
    (g : Costmap2D) : Costmap2D :=
  set_cells g
    (mapi_from
       (fun i c =>
          let (mx, my) := indexToCells g i in
          if cell_in_world_polygon g polygon mx my then cost_value else c)
       0 (costmap_ g)).

(** Modelled from the spec: a layer's own reset ([Layer::reset]) sets every
    cell of the layer to that layer's default value. *)
Definition resetLayer (l : CostmapLayer) : CostmapLayer :=
  set_grid l
    (set_cells (grid l) (map (fun _ => default_value_ (grid l)) (costmap_ (grid l)))).

(** Modelled from the spec: [Costmap2DROS::resetLayers] is not in this
    file. It is the full layer-stack reset that "resets every layer to its
    default value". *)
Definition resetLayers (c : Costmap2DROS) : Costmap2DROS :=
  mkCostmap2DROS (master c) (map resetLayer (plugins c)).

End Engine.

(** ** ClearCostmapService *)

(** The members of the service that its operations read. The reference
    [costmap_] to the shared [Costmap2DROS] is passed to, and returned by,
    every operation. *)
Record ClearCostmapService : Type := mkService {
  reset_value_ : Z;
  clearable_layers_ : list string
}.

(** The constructor: [reset_value_] is the master grid's default value at
    construction time, [clearable_layers_] the node's parameter of that
    name. *)
Definition newClearCostmapService (clearable_layers : list string)
    (costmap : Costmap2DROS) : ClearCostmapService :=
  mkService (getDefaultValue (master costmap)) clearable_layers.

Definition pose_error : string :=
  "Cannot clear map because robot pose cannot be retrieved.".

(** The three request types the constructor creates a service for. *)
Inductive ClearRequest : Type :=
| ClearExceptRegion
| ClearAroundRobot
| ClearEntirely.

(** The name under which the constructor registers the service of a request
    type: a prefix, then [costmap_.getName()]. *)
Definition serviceName (request : ClearRequest) (costmap_name : string) : string :=
  match request with
  | ClearExceptRegion => "clear_except_" ++ costmap_name
  | ClearAroundRobot => "clear_around_" ++ costmap_name
  | ClearEntirely => "clear_entirely_" ++ costmap_name
  end.

Section Service.

Context {engine : GridEngine}.
Variable this : ClearCostmapService.

Local Open Scope service_scope.

Definition getPosition : M (option (Q * Q)) :=
  pose <- getRobotPose ;;
  match pose with
  | None => ret None
  | Some pose => ret (Some (position_x pose, position_y pose))
  end.

Definition getLayerName (layer : CostmapLayer) : string :=
  let name := getName layer in
  match StdString.rfind "/" name with
  | Some slash => StdString.substr name (slash + 1)
  | None => name
  end.

Definition isClearable (layer_name : string) : bool :=
  negb (count_occ string_dec (clearable_layers_ this) layer_name =? 0)%nat.

(** The four corners of the preserved region, before rotation: the local
    [corners] of [clearLayerExceptRegion]. *)
Definition regionCorners (pose_x pose_y reset_distance : Q) : list Point :=
  let half_dist := reset_distance / 2 in
  [ mkPoint (pose_x - half_dist) (pose_y - half_dist);
    mkPoint (pose_x + 0.259) (pose_y - half_dist);
    mkPoint (pose_x + 0.259) (pose_y + half_dist);
    mkPoint (pose_x - half_dist) (pose_y + half_dist) ].

Definition clearLayerExceptRegion (costmap : CostmapLayer)
    (pose_x pose_y reset_distance : Q) : M CostmapLayer :=
  lock (LayerMutex (getName costmap)) ;;;
  pose <- getRobotPose ;;
  match pose with
  | None =>
      unlock (LayerMutex (getName costmap)) ;;;
      ret costmap
  | Some pose =>
      let yaw := yaw_of_orientation pose in
      let corners := regionCorners pose_x pose_y reset_distance in
      let rotated_corners := map (rotatePoint pose_x pose_y yaw) corners in
      let map_corners :=
        map (fun corner =>
               let (map_x, map_y) :=
                 worldToMapEnforceBounds costmap (px corner) (py corner) in
               mkPoint (inject_Z map_x) (inject_Z map_y))
            rotated_corners in
      let costmap := clearArea map_corners costmap in
      let ox := getOriginX costmap in
      let oy := getOriginY costmap in
      let width := getSizeInMetersX costmap in
      let height := getSizeInMetersY costmap in
      let costmap := addExtraBounds ox oy (ox + width) (oy + height) costmap in
      unlock (LayerMutex (getName costmap)) ;;;
      ret costmap
  end.

(** The body of the loop [for (auto & layer : *layers)] of
    [clearExceptRegion]. *)
Fixpoint clearLayersExceptRegion (layers : list CostmapLayer)
    (x y reset_distance : Q) : M (list CostmapLayer) :=
  match layers with
  | [] => ret []
  | layer :: rest =>
      layer' <- (if isClearable (getLayerName layer)
                 then clearLayerExceptRegion layer x y reset_distance
                 else ret layer) ;;
      rest' <- clearLayersExceptRegion rest x y reset_distance ;;
      ret (layer' :: rest')
  end.

Definition clearExceptRegion (reset_distance : Q) (ros : Costmap2DROS)
    : M Costmap2DROS :=
  pos <- getPosition ;;
  match pos with
  | None =>
      RCLCPP_ERROR pose_error ;;;
      ret ros
  | Some (x, y) =>
      layers <- clearLayersExceptRegion (plugins ros) x y reset_distance ;;
      ret (mkCostmap2DROS (master ros) layers)
  end.

(** The rectangle [clearAroundRobot] hands to the grid engine: its local
    [clear_poly]. *)
Definition windowPolygon (pose_x pose_y window_size_x window_size_y : Q)
    : list Point :=
  [ mkPoint (pose_x - window_size_x / 2) (pose_y - window_size_y / 2);
    mkPoint (pose_x + window_size_x / 2) (pose_y - window_size_y / 2);
    mkPoint (pose_x + window_size_x / 2) (pose_y + window_size_y / 2);
    mkPoint (pose_x - window_size_x / 2) (pose_y + window_size_y / 2) ].

Definition clearAroundRobot (window_size_x window_size_y : Q)
    (ros : Costmap2DROS) : M Costmap2DROS :=
  pos <- getPosition ;;
  match pos with
  | None =>
      RCLCPP_ERROR pose_error ;;;
      ret ros
  | Some (pose_x, pose_y) =>
      let clear_poly := windowPolygon pose_x pose_y window_size_x window_size_y in
      ret (mkCostmap2DROS
             (setConvexPolygonCost clear_poly (reset_value_ this) (master ros))
             (plugins ros))
  end.

Definition clearEntirely (ros : Costmap2DROS) : M Costmap2DROS :=
  lock MasterMutex ;;;
  let ros := resetLayers ros in
  unlock MasterMutex ;;;
  ret ros.

(** *** Service callbacks: one per request type *)

Definition clearExceptRegionCallback (reset_distance : Q)
    (ros : Costmap2DROS) : M Costmap2DROS :=
  clearExceptRegion reset_distance ros.

Definition clearAroundRobotCallback (window_size_x window_size_y : Q)
    (ros : Costmap2DROS) : M Costmap2DROS :=
  if Qeq_bool window_size_x 0 || Qeq_bool window_size_y 0
  then clearEntirely ros
  else clearAroundRobot window_size_x window_size_y ros.

Definition clearEntireCallback (ros : Costmap2DROS) : M Costmap2DROS :=
  clearEntirely ros.

End Service.

(** ** The corner computation in binary64

    The same four corners in the arithmetic a C++ [double] really has (IEEE
    754 binary64, round to nearest even), to check that rounding does not
    disturb them at the pose and distance of interest. The literal 0.259 is
    written as the binary64 value nearest to it. *)

Module Binary64.

Import PrimFloat.
Local Open Scope float_scope.

(** The double nearest to 0.259. *)
Definition lit_0_259 : float := 0x1.09374bc6a7efap-2.

Definition regionCorners64 (pose_x pose_y reset_distance : float)
    : list (float * float) :=
  let half_dist := reset_distance / 2 in
  [ (pose_x - half_dist, pose_y - half_dist);
    (pose_x + lit_0_259, pose_y - half_dist);
    (pose_x + lit_0_259, pose_y + half_dist);
    (pose_x - half_dist, pose_y + half_dist) ].

End Binary64.

(** ** What the operations are observed to do *)

Section Observations.

Context {engine : GridEngine}.
Variable this : ClearCostmapService.

(** The answer the next call of [getRobotPose] gets. *)
Definition nextPose (r : Runtime) : option PoseStamped := fst (getRobotPose r).

(** The two events of one visit of a layer. *)
Definition visit (l : CostmapLayer) : list Event :=
  [Acquire (LayerMutex (getName l)); Release (LayerMutex (getName l))].

(** The layer an except-region clear leaves behind when the pose re-check
    answers [pose]. *)
Definition clearedExceptRegion (l : CostmapLayer) (x y reset_distance : Q)
    (pose : PoseStamped) : CostmapLayer :=
  let map_corners :=
    map (fun corner =>
           let (map_x, map_y) :=
             worldToMapEnforceBounds l (px corner) (py corner) in
           mkPoint (inject_Z map_x) (inject_Z map_y))
        (map (rotatePoint x y (yaw_of_orientation pose))
             (regionCorners x y reset_distance)) in
  let l1 := clearArea map_corners l in
  addExtraBounds (getOriginX l1) (getOriginY l1)
                 (getOriginX l1 + getSizeInMetersX l1)
                 (getOriginY l1 + getSizeInMetersY l1) l1.

(** What one visit does to a layer, by the answer of the re-check. *)
Definition visited (l : CostmapLayer) (x y reset_distance : Q)
    (answer : option PoseStamped) : CostmapLayer :=
  match answer with
  | None => l
  | Some pose => clearedExceptRegion l x y reset_distance pose
  end.

(** The layers the filter lets through, in stack order. *)
Definition selected (layers : list CostmapLayer) : list CostmapLayer :=
  filter (fun l => isClearable this (getLayerName l)) layers.

(** The layer stack after the loop, by the answers of the pose source: each
    selected layer takes the next answer, the others take none. *)
Fixpoint loopResult (layers : list CostmapLayer) (x y d : Q)
    (answers : list (option PoseStamped)) : list CostmapLayer :=
  match layers with
  | [] => []
  | l :: rest =>
      if isClearable this (getLayerName l)
      then visited l x y d (nextPose (mkRuntime answers []))
             :: loopResult rest x y d (tl answers)
      else l :: loopResult rest x y d answers
  end.

(** An operation aborts on a lost pose: it changes neither the master grid
    nor any layer, and its only effect is the error it logs. *)
Definition abortsOnLostPose (operation : Costmap2DROS -> M Costmap2DROS)
    (ros : Costmap2DROS) (r : Runtime) : Prop :=
  fst (operation ros r) = ros /\
  events (snd (operation ros r)) = (events r ++ [LogError pose_error])%list.

(** An operation writes to allow-listed layers only: the master grid and
    every layer the filter rejects are as before. *)
Definition writesOnlyClearableLayers (operation : Costmap2DROS -> M Costmap2DROS)
    (ros : Costmap2DROS) (r : Runtime) : Prop :=
  master (fst (operation ros r)) = master ros /\
  forall i l,
    nth_error (plugins ros) i = Some l ->
    isClearable this (getLayerName l) = false ->
    nth_error (plugins (fst (operation ros r))) i = Some l.


End Observations.

(** A record of events in which every mutex taken is released before
    anything else happens: no two mutexes are ever held together and none
    is left held. *)
Inductive Serial : list Event -> Prop :=
| Serial_nil : Serial []
| Serial_log (msg : string) (rest : list Event) :
    Serial rest -> Serial (LogError msg :: rest)
| Serial_critical (m : Mutex) (rest : list Event) :
    Serial rest -> Serial (Acquire m :: Release m :: rest).

(** The mutex an event is about, if any. *)
Definition mutexOf (e : Event) : option Mutex :=
  match e with
  | Acquire m | Release m => Some m
  | LogError _ => None
  end.

(** ** A concrete world, used to run the service *)

Module Demo.

(** Smallest and largest coordinate of a list of points along one axis. *)
Definition span (f : Point -> Q) (poly : list Point) : Q * Q :=
  match poly with
  | [] => (0, 0)
  | p :: rest =>
      fold_left (fun acc q => (fmin (fst acc) (f q), fmax (snd acc) (f q)))
                rest (f p, f p)
  end.

Definition in_box (poly : list Point) (x y : Q) : bool :=
  match poly with
  | [] => false
  | _ =>
      Qle_bool (fst (span px poly)) x && Qle_bool x (snd (span px poly)) &&
      Qle_bool (fst (span py poly)) y && Qle_bool y (snd (span py poly))
  end.

(** A grid engine that rasterises a polygon as its bounding box and knows
    the trigonometry of small angles only (exact at angle 0). *)
#[export] Instance boxEngine : GridEngine :=
  mkGridEngine
    (fun a => 1 - a * a / 2)
    (fun a => a)
    (fun poly mx my => in_box poly (inject_Z mx) (inject_Z my))
    (fun g poly mx my =>
       in_box poly
         (origin_x_ g + (inject_Z mx + 0.5) * resolution_ g)
         (origin_y_ g + (inject_Z my + 0.5) * resolution_ g)).

(** A 4 x 4 grid of 1 m cells whose origin is (-2, -2). *)
Definition grid4 (cells : list Z) (default : Z) : Costmap2D :=
  mkCostmap2D 4 4 1 (-2) (-2) cells default.

Definition lethal16 : list Z := repeat 254%Z 16.

(** No dirty bounds yet: an empty rectangle. *)
Definition layer4 (name : string) (default : Z) : CostmapLayer :=
  mkCostmapLayer name (grid4 lethal16 default) 1000000 1000000 (-1000000) (-1000000).

Definition static_layer : CostmapLayer := layer4 "local_costmap/static_layer" 255.
Definition obstacle_layer : CostmapLayer := layer4 "local_costmap/obstacle_layer" 0.
Definition voxel_layer : CostmapLayer := layer4 "voxel_layer" 0.


Definition ros : Costmap2DROS :=
  mkCostmap2DROS (grid4 lethal16 0) [static_layer; obstacle_layer; voxel_layer].

Definition service : ClearCostmapService :=
  newClearCostmapService ["obstacle_layer"; "voxel_layer"] ros.

Definition at_origin : PoseStamped := mkPose 0 0 0.

(** The pose is always available. *)
Definition steady : Runtime := mkRuntime (repeat (Some at_origin) 8) [].

(** The pose cannot be retrieved. *)
Definition lost : Runtime := mkRuntime [None] [].

(** The pose is lost only while the first clearable layer is visited. *)
Definition flicker : Runtime :=
  mkRuntime [Some at_origin; None; Some at_origin] [].

(** A service whose allow-list holds full, namespaced layer names. *)
Definition namespaced_service : ClearCostmapService :=
  newClearCostmapService
    ["local_costmap/obstacle_layer"; "local_costmap/voxel_layer"] ros.

(** A layer whose name ends in the separator. *)
Definition unnamed_layer : CostmapLayer := layer4 "local_costmap/" 0.


End Demo.


(** * Properties *)

(** ** Strings: [rfind] and [substr] *)

Module StdStringFacts.
Import StdString.

Lemma rfind_None (c : ascii) (s : string) :
  rfind c s = None <-> contains c s = false.
Proof.
  induction s as [|a rest IH]; simpl.
  - split; reflexivity.
  - destruct (rfind c rest) as [i|].
    + split; [discriminate|].
      intros H. apply orb_false_iff in H. destruct H as [_ H].
      apply IH in H. discriminate.
    + destruct (Ascii.eqb a c); simpl.
      * split; discriminate.
      * split; intros _; [now apply IH | reflexivity].
Qed.

(** The index [rfind] returns is a valid position, so [substr] at the next
    position never leaves the string. *)
Lemma rfind_lt (c : ascii) (s : string) (i : nat) :
  rfind c s = Some i -> (i < String.length s)%nat.
Proof.
  revert i. induction s as [|a rest IH]; simpl; intros i H; [discriminate|].
  destruct (rfind c rest) as [j|].
  - injection H as <-. specialize (IH j eq_refl). lia.
  - destruct (Ascii.eqb a c); [injection H as <-; lia | discriminate].
Qed.

(** What follows the position [rfind] returns is the rest of the string
    after its last [c]. *)
Lemma rfind_Some (c : ascii) (s : string) (i : nat) :
  rfind c s = Some i ->
  exists pre,
    s = (pre ++ String c (substr s (S i)))%string /\
    String.length pre = i /\
    contains c (substr s (S i)) = false.
Proof.
  revert i. induction s as [|a rest IH]; simpl; intros i H; [discriminate|].
  destruct (rfind c rest) as [j|] eqn:E.
  - injection H as <-. destruct (IH j eq_refl) as (pre & Hs & Hlen & Hno).
    exists (String a pre). simpl. repeat split.
    + now rewrite <- Hs.
    + now rewrite Hlen.
    + exact Hno.
  - destruct (Ascii.eqb_spec a c) as [->|]; [|discriminate].
    injection H as <-. exists EmptyString. simpl.
    destruct rest; repeat split; now apply rfind_None.
Qed.

End StdStringFacts.

(** ** The effect of one visit and of the loop over the layer stack *)

Section Properties.

Context {engine : GridEngine}.
Variable this : ClearCostmapService.

Lemma clearLayerExceptRegion_run (l : CostmapLayer) (x y d : Q) (r : Runtime) :
  clearLayerExceptRegion l x y d r =
  (visited l x y d (nextPose r),
   mkRuntime (tl (pose_source r)) (events r ++ visit l)).
Proof.
  destruct r as [answers ev].
  unfold clearLayerExceptRegion, nextPose, visit, bind, lock, unlock, emit,
    getRobotPose; simpl.
  destruct answers as [|[pose|] rest]; simpl;
    rewrite <- app_assoc; reflexivity.
Qed.

Lemma clearLayersExceptRegion_run (layers : list CostmapLayer) (x y d : Q) :
  forall r,
    clearLayersExceptRegion this layers x y d r =
    (loopResult this layers x y d (pose_source r),
     mkRuntime (skipn (List.length (selected this layers)) (pose_source r))
               (events r ++ flat_map visit (selected this layers))).
Proof.
  induction layers as [|l rest IH]; intros [answers ev]; simpl.
  - unfold ret. now rewrite app_nil_r.
  - unfold bind at 1.
    destruct (isClearable this (getLayerName l)) eqn:E; simpl.
    + rewrite clearLayerExceptRegion_run. unfold bind at 1.
      rewrite IH. simpl. unfold ret.
      rewrite <- app_assoc.
      destruct answers; simpl; try reflexivity.
      now rewrite skipn_nil.
    + unfold ret at 1. unfold bind at 1. rewrite IH. reflexivity.
Qed.

(** The loop splits at any position of the stack. *)
Lemma clearLayersExceptRegion_app (pre post : list CostmapLayer) (x y d : Q) :
  forall r,
    clearLayersExceptRegion this (pre ++ post) x y d r =
    let (pre', r1) := clearLayersExceptRegion this pre x y d r in
    let (post', r2) := clearLayersExceptRegion this post x y d r1 in
    ((pre' ++ post')%list, r2).
Proof.
  induction pre as [|l rest IH]; intros r; simpl.
  - unfold ret. now destruct (clearLayersExceptRegion this post x y d r).
  - unfold bind.
    destruct ((if isClearable this (getLayerName l)
               then clearLayerExceptRegion l x y d
               else ret l) r) as [l' r0].
    rewrite IH.
    destruct (clearLayersExceptRegion this rest x y d r0) as [pre' r1].
    unfold ret.
    destruct (clearLayersExceptRegion this post x y d r1) as [post' r2].
    reflexivity.
Qed.

(** A layer the filter rejects keeps its place and its whole state. *)
Lemma loopResult_frame (layers : list CostmapLayer) (x y d : Q) :
  forall answers i l,
    nth_error layers i = Some l ->
    isClearable this (getLayerName l) = false ->
    nth_error (loopResult this layers x y d answers) i = Some l.
Proof.
  induction layers as [|l0 rest IH]; intros answers i l Hi Hl.
  - destruct i; discriminate.
  - destruct i as [|i]; simpl in *.
    + injection Hi as ->. now rewrite Hl.
    + destruct (isClearable this (getLayerName l0)); simpl; now apply IH.
Qed.

Lemma loopResult_length (layers : list CostmapLayer) (x y d : Q) :
  forall answers,
    List.length (loopResult this layers x y d answers) = List.length layers.
Proof.
  induction layers as [|l rest IH]; intros answers; simpl; [reflexivity|].
  destruct (isClearable this (getLayerName l)); simpl; now rewrite IH.
Qed.

(** A layer the filter accepts holds the outcome of one visit. *)
Lemma loopResult_selected (layers : list CostmapLayer) (x y d : Q) :
  forall answers i l,
    nth_error layers i = Some l ->
    isClearable this (getLayerName l) = true ->
    exists answer,
      nth_error (loopResult this layers x y d answers) i
      = Some (visited l x y d answer).
Proof.
  induction layers as [|l0 rest IH]; intros answers i l Hi Hl.
  - destruct i; discriminate.
  - destruct i as [|i]; simpl in *.
    + injection Hi as ->. rewrite Hl. eexists. reflexivity.
    + destruct (isClearable this (getLayerName l0)); simpl; now apply IH.
Qed.

Lemma isClearable_In (layer_name : string) :
  isClearable this layer_name = true <-> In layer_name (clearable_layers_ this).
Proof.
  unfold isClearable. rewrite negb_true_iff, Nat.eqb_neq.
  rewrite (count_occ_In string_dec). lia.
Qed.



Lemma nth_error_mapi_from {A B : Type} (f : nat -> A -> B) (l : list A) :
  forall k i,
    nth_error (mapi_from f k l) i = option_map (f (k + i)%nat) (nth_error l i).
Proof.
  induction l as [|a rest IH]; intros k i; simpl.
  - now destruct i.
  - destruct i as [|i]; simpl.
    + now rewrite Nat.add_0_r.
    + rewrite IH. now rewrite Nat.add_succ_comm.
Qed.


End Properties.

(** ** The claims *)

Import Demo.

(** C1, as stated, fails: [clearAroundRobot] never looks at the allow-list.
    With the pose available it writes the window into the master grid, which
    is no allow-listed layer, and it records no mutex event while doing
    so. *)
Lemma clearAroundRobot_writes_master_grid :
  nextPose steady = Some at_origin /\
  events (snd (clearAroundRobot service 2 2 ros steady)) = [] /\
  ~ writesOnlyClearableLayers service (clearAroundRobot service 2 2) ros steady.
Proof.
  split; [reflexivity|]. split; [reflexivity|].
  intros [Hmaster _]. vm_compute in Hmaster. discriminate Hmaster.
Qed.

(** C1, as amended. A layer whose trailing name segment is not in the
    allow-list is left exactly as it was (cells, dirty bounds and all) by
    [clearExceptRegion] and by [clearAroundRobot]. [clearExceptRegion]
    never writes to the master grid. [clearAroundRobot] does not consult
    the allow-list and iterates no layer: whatever the stack holds, the
    stack is as before and no mutex is taken; with the pose available all
    it does is assign the reset value in the window of the master grid,
    with the pose lost all it does is log the error. *)
Theorem nonclearable_layer_untouched {engine : GridEngine}
    (this : ClearCostmapService) (reset_distance wx wy : Q)
    (ros : Costmap2DROS) (r : Runtime) :
  (forall i l,
      nth_error (plugins ros) i = Some l ->
      isClearable this (getLayerName l) = false ->
      nth_error (plugins (fst (clearExceptRegion this reset_distance ros r))) i
      = Some l) /\
  master (fst (clearExceptRegion this reset_distance ros r)) = master ros /\
  plugins (fst (clearAroundRobot this wx wy ros r)) = plugins ros /\
  clearAroundRobot this wx wy ros r =
    match nextPose r with
    | Some pose =>
        (mkCostmap2DROS
           (setConvexPolygonCost
              (windowPolygon (position_x pose) (position_y pose) wx wy)
              (reset_value_ this) (master ros))
           (plugins ros),
         mkRuntime (skipn 1 (pose_source r)) (events r))
    | None =>
        (ros,
         mkRuntime (skipn 1 (pose_source r))
                   (events r ++ [LogError pose_error]))
    end.
Proof.
  destruct r as [answers ev].
  unfold clearExceptRegion, clearAroundRobot, getPosition, nextPose, bind,
    getRobotPose, RCLCPP_ERROR, emit, ret; simpl.
  destruct answers as [|[pose|] rest]; simpl.
  - repeat split; auto.
  - rewrite clearLayersExceptRegion_run. simpl.
    repeat split; auto. intros i l. apply loopResult_frame.
  - repeat split; auto.
Qed.

Lemma nonclearable_layer_untouched_witness :
  nth_error (plugins ros) 0 = Some static_layer /\
  isClearable service (getLayerName static_layer) = false /\
  nth_error (plugins (fst (clearExceptRegion service 2 ros steady))) 0
    = Some static_layer /\
  master (fst (clearExceptRegion service 2 ros steady)) = master ros /\
  plugins (fst (clearAroundRobot service 2 2 ros steady)) = plugins ros /\
  events (snd (clearAroundRobot service 2 2 ros steady)) = [].
Proof.
  split; [reflexivity|]. split; [reflexivity|].
  destruct (nonclearable_layer_untouched service 2 2 2 ros steady)
    as (H1 & H2 & H3 & H4).
  split; [exact (H1 0%nat static_layer eq_refl eq_refl)|].
  split; [exact H2|]. split; [exact H3|].
  rewrite H4. reflexivity.
Defined.

(** C2, as stated, fails for [clearEntirely]: it does not ask for the pose.
    With the pose lost it still resets the layers and logs no error. *)
Lemma clearEntirely_ignores_lost_pose :
  nextPose lost = None /\ ~ abortsOnLostPose clearEntirely ros lost.
Proof.
  split; [reflexivity|].
  intros [Hsame _]. vm_compute in Hsame. discriminate Hsame.
Qed.

(** C2, as amended. [clearExceptRegion] and [clearAroundRobot] first ask for
    the robot pose; when it cannot be retrieved they abort: the master grid
    and every layer are as before and the pose error is logged.
    [clearEntirely] does not consult the pose: whether or not a pose is
    available, it resets the layer stack under the master mutex, leaves the
    pose source untouched and logs nothing. *)
Theorem lost_pose_aborts {engine : GridEngine} (this : ClearCostmapService)
    (reset_distance wx wy : Q) (ros : Costmap2DROS) (r : Runtime) :
  (nextPose r = None ->
   abortsOnLostPose (clearExceptRegion this reset_distance) ros r /\
   abortsOnLostPose (clearAroundRobot this wx wy) ros r) /\
  clearEntirely ros r =
    (resetLayers ros,
     mkRuntime (pose_source r)
               (events r ++ [Acquire MasterMutex; Release MasterMutex])).
Proof.
  split.
  - destruct r as [answers ev]. unfold nextPose, getRobotPose. simpl.
    intros Hlost.
    unfold abortsOnLostPose, clearExceptRegion, clearAroundRobot,
      getPosition, bind, getRobotPose, RCLCPP_ERROR, emit, ret.
    simpl.
    destruct answers as [|[pose|] rest]; simpl in *; try discriminate;
      repeat split; reflexivity.
  - unfold clearEntirely, bind, lock, unlock, emit, ret. simpl.
    now rewrite <- app_assoc.
Qed.

Lemma lost_pose_aborts_witness :
  nextPose lost = None /\
  abortsOnLostPose (clearExceptRegion service 2) ros lost /\
  abortsOnLostPose (clearAroundRobot service 2 2) ros lost /\
  fst (clearEntirely ros lost) = resetLayers ros /\
  fst (clearEntirely ros steady) = resetLayers ros /\
  pose_source (snd (clearEntirely ros steady)) = pose_source steady.
Proof.
  split; [reflexivity|].
  destruct (lost_pose_aborts service 2 2 2 ros lost) as (Habort & Hlost).
  destruct (Habort eq_refl) as (H1 & H2).
  destruct (lost_pose_aborts service 2 2 2 ros steady) as (_ & Hsteady).
  split; [exact H1|]. split; [exact H2|].
  rewrite Hlost, Hsteady. repeat split; reflexivity.
Defined.

(** C3. The corners of the preserved region, before rotation, are
    (x - d/2, y - d/2), (x + 0.259, y - d/2), (x + 0.259, y + d/2) and
    (x - d/2, y + d/2): the rear pair is offset by half the reset distance,
    the forward pair by the literal 0.259. At pose (0, 0) and reset
    distance 2 they are (-1,-1), (0.259,-1), (0.259,1), (-1,1). *)
Theorem regionCorners_at_origin :
  (forall x y d,
      regionCorners x y d =
      [ mkPoint (x - d / 2) (y - d / 2); mkPoint (x + 0.259) (y - d / 2);
        mkPoint (x + 0.259) (y + d / 2); mkPoint (x - d / 2) (y + d / 2) ]) /\
  Forall2 Point_eq (regionCorners 0 0 2)
    [ mkPoint (-1) (-1); mkPoint 0.259 (-1); mkPoint 0.259 1; mkPoint (-1) 1 ].
Proof.
  split; [reflexivity|].
  unfold regionCorners.
  repeat constructor; simpl; reflexivity.
Qed.

(** The same holds bit for bit in binary64: at pose (0, 0) and reset
    distance 2 no operation rounds. *)
Module Binary64Facts.
Import PrimFloat Binary64.

Lemma regionCorners64_at_origin :
  regionCorners64 0 0 2 =
  [ (-1, -1); (lit_0_259, -1); (lit_0_259, 1); (-1, 1) ]%float.
Proof. vm_compute. reflexivity. Qed.

End Binary64Facts.

(** C4. A ClearAroundRobot request whose window is zero along x or along y
    does what a ClearEntireCostmap request does: same grids, same runtime.
    It is no error: all it adds to the record is the master mutex taken and
    released. *)
Theorem zero_window_clears_entirely {engine : GridEngine}
    (this : ClearCostmapService) (window_size_x window_size_y : Q)
    (ros : Costmap2DROS) (r : Runtime) :
  window_size_x == 0 \/ window_size_y == 0 ->
  clearAroundRobotCallback this window_size_x window_size_y ros r
    = clearEntireCallback ros r /\
  events (snd (clearAroundRobotCallback this window_size_x window_size_y ros r))
    = (events r ++ [Acquire MasterMutex; Release MasterMutex])%list.
Proof.
  intros Hzero.
  assert (Hb : Qeq_bool window_size_x 0 || Qeq_bool window_size_y 0 = true).
  { apply orb_true_iff.
    destruct Hzero as [H|H]; [left|right]; now apply Qeq_bool_iff. }
  unfold clearAroundRobotCallback, clearEntireCallback. rewrite Hb.
  split; [reflexivity|].
  unfold clearEntirely, bind, lock, unlock, emit, ret. simpl.
  now rewrite <- app_assoc.
Qed.

Lemma zero_window_clears_entirely_witness :
  (0 == 0 \/ 3 == 0) /\
  clearAroundRobotCallback service 0 3 ros steady = clearEntireCallback ros steady.
Proof.
  assert (H : 0 == 0 \/ 3 == 0) by (left; reflexivity).
  split; [exact H|].
  exact (proj1 (zero_window_clears_entirely service 0 3 ros steady H)).
Defined.




(** C6. Once the pose is available, [clearExceptRegion] visits exactly the
    layers whose trailing name segment is in the allow-list, one after the
    other in stack order: the record grows by one acquire/release pair per
    such layer, in that order, and by nothing else, so no error is logged
    for the others. Every layer keeps its place; a layer the filter
    rejects is as before, a layer it accepts holds the outcome of its one
    visit. *)
Theorem layer_filter_in_stack_order {engine : GridEngine}
    (this : ClearCostmapService) (reset_distance : Q)
    (ros : Costmap2DROS) (r : Runtime) (pose : PoseStamped) :
  nextPose r = Some pose ->
  let after := clearExceptRegion this reset_distance ros r in
  let x := position_x pose in
  let y := position_y pose in
  (forall name,
      isClearable this name = true <-> In name (clearable_layers_ this)) /\
  events (snd after) =
    (events r ++
     flat_map (fun l => [Acquire (LayerMutex (getName l));
                         Release (LayerMutex (getName l))])
       (filter (fun l => isClearable this (getLayerName l)) (plugins ros)))%list /\
  List.length (plugins (fst after)) = List.length (plugins ros) /\
  (forall i l,
      nth_error (plugins ros) i = Some l ->
      isClearable this (getLayerName l) = false ->
      nth_error (plugins (fst after)) i = Some l) /\
  (forall i l,
      nth_error (plugins ros) i = Some l ->
      isClearable this (getLayerName l) = true ->
      exists answer,
        nth_error (plugins (fst after)) i
        = Some (visited l x y reset_distance answer)).
Proof.
  intros Hpose after x y. subst after x y.
  destruct r as [answers ev]. unfold nextPose, getRobotPose in Hpose.
  simpl in Hpose.
  destruct answers as [|first rest]; simpl in Hpose; [discriminate|].
  subst first.
  unfold clearExceptRegion, getPosition, bind, getRobotPose, ret. simpl.
  rewrite clearLayersExceptRegion_run. simpl.
  split; [apply isClearable_In|].
  split; [reflexivity|].
  split; [apply loopResult_length|].
  split.
  - intros i l. apply loopResult_frame.
  - intros i l. apply loopResult_selected.
Qed.

Lemma layer_filter_in_stack_order_witness :
  nextPose steady = Some at_origin /\
  events (snd (clearExceptRegion service 2 ros steady)) =
    [ Acquire (LayerMutex "local_costmap/obstacle_layer");
      Release (LayerMutex "local_costmap/obstacle_layer");
      Acquire (LayerMutex "voxel_layer");
      Release (LayerMutex "voxel_layer") ].
Proof.
  split; [reflexivity|].
  exact (proj1 (proj2
    (layer_filter_in_stack_order service 2 ros steady at_origin eq_refl))).
Defined.

(** C7. With the pose available, [clearAroundRobot] is one call of the
    convex-polygon cost assignment on the master grid, with the reset value
    and with the rectangle whose corners are (x -/+ windowX/2,
    y -/+ windowY/2) around the robot position; the heading is not used.
    Every cell of the master grid inside that rectangle then holds the
    reset value and every other cell is as before; the reset value is the
    default value of the master grid that the constructor read. A request
    with two nonzero window sizes is served by this operation. *)
Theorem clearAroundRobot_window {engine : GridEngine}
    (this : ClearCostmapService) (window_size_x window_size_y : Q)
    (ros : Costmap2DROS) (r : Runtime) (pose : PoseStamped) :
  nextPose r = Some pose ->
  let x := position_x pose in
  let y := position_y pose in
  let window :=
    [ mkPoint (x - window_size_x / 2) (y - window_size_y / 2);
      mkPoint (x + window_size_x / 2) (y - window_size_y / 2);
      mkPoint (x + window_size_x / 2) (y + window_size_y / 2);
      mkPoint (x - window_size_x / 2) (y + window_size_y / 2) ] in
  let after := fst (clearAroundRobot this window_size_x window_size_y ros r) in
  after = mkCostmap2DROS
            (setConvexPolygonCost window (reset_value_ this) (master ros))
            (plugins ros) /\
  (forall i c,
      nth_error (costmap_ (master ros)) i = Some c ->
      nth_error (costmap_ (master after)) i =
      Some (if cell_in_world_polygon (master ros) window
                 (fst (indexToCells (master ros) i))
                 (snd (indexToCells (master ros) i))
            then reset_value_ this else c)) /\
  (forall names,
      reset_value_ (newClearCostmapService names ros)
      = getDefaultValue (master ros)) /\
  (~ window_size_x == 0 -> ~ window_size_y == 0 ->
   clearAroundRobotCallback this window_size_x window_size_y ros r
   = clearAroundRobot this window_size_x window_size_y ros r).
Proof.
  intros Hpose x y window after. subst after window x y.
  destruct r as [answers ev]. unfold nextPose, getRobotPose in Hpose.
  simpl in Hpose.
  destruct answers as [|first rest]; simpl in Hpose; [discriminate|].
  subst first.
  unfold clearAroundRobot, getPosition, bind, getRobotPose, ret. simpl.
  split; [reflexivity|]. split; [|split; [reflexivity|]].
  - intros i c Hc. rewrite nth_error_mapi_from, Hc. simpl.
    now destruct (indexToCells (master ros) i).
  - intros Hx Hy. unfold clearAroundRobotCallback.
    destruct (Qeq_bool window_size_x 0) eqn:Ex.
    + apply Qeq_bool_iff in Ex. contradiction.
    + destruct (Qeq_bool window_size_y 0) eqn:Ey; simpl.
      * apply Qeq_bool_iff in Ey. contradiction.
      * unfold clearAroundRobot, getPosition, bind, getRobotPose, ret.
        reflexivity.
Qed.

Lemma clearAroundRobot_window_witness :
  nextPose steady = Some at_origin /\
  costmap_ (master (fst (clearAroundRobot service 2 2 ros steady))) =
    [ 254; 254; 254; 254;
      254;   0;   0; 254;
      254;   0;   0; 254;
      254; 254; 254; 254 ]%Z.
Proof.
  split; [reflexivity|].
  rewrite (proj1 (clearAroundRobot_window service 2 2 ros steady at_origin eq_refl)).
  reflexivity.
Defined.

(** C8. In the loop of [clearExceptRegion], a selected layer whose pose
    re-check fails is left exactly as it was (its mutex is taken and
    released, nothing is logged), and the loop goes on: the layers after it
    are processed as the loop processes them from the runtime the skipped
    visit leaves, and the operation returns their results. *)
Theorem lost_pose_skips_one_layer {engine : GridEngine}
    (this : ClearCostmapService) (reset_distance : Q)
    (ros : Costmap2DROS) (r : Runtime) (pose : PoseStamped)
    (pre : list CostmapLayer) (l : CostmapLayer) (post : list CostmapLayer) :
  nextPose r = Some pose ->
  plugins ros = (pre ++ l :: post)%list ->
  isClearable this (getLayerName l) = true ->
  let x := position_x pose in
  let y := position_y pose in
  let before :=
    clearLayersExceptRegion this pre x y reset_distance
      (mkRuntime (tl (pose_source r)) (events r)) in
  nextPose (snd before) = None ->
  let skipped :=
    mkRuntime (tl (pose_source (snd before)))
              (events (snd before) ++
               [Acquire (LayerMutex (getName l));
                Release (LayerMutex (getName l))]) in
  let rest := clearLayersExceptRegion this post x y reset_distance skipped in
  clearExceptRegion this reset_distance ros r =
  (mkCostmap2DROS (master ros) (fst before ++ l :: fst rest), snd rest).
Proof.
  intros Hpose Hstack Hl x y before Hlost skipped rest.
  subst rest skipped before x y.
  destruct r as [answers ev]. unfold nextPose at 1, getRobotPose in Hpose.
  simpl in Hpose.
  destruct answers as [|first answers]; simpl in Hpose; [discriminate|].
  subst first. simpl in *.
  unfold clearExceptRegion, getPosition, bind, getRobotPose, ret.
  simpl. rewrite Hstack, clearLayersExceptRegion_app.
  destruct (clearLayersExceptRegion this pre (position_x pose)
              (position_y pose) reset_distance (mkRuntime answers ev))
    as [pre' r1].
  cbn [fst snd clearLayersExceptRegion] in *. rewrite Hl.
  unfold bind at 1. rewrite clearLayerExceptRegion_run, Hlost.
  unfold bind, ret, visit, visited.
  destruct (clearLayersExceptRegion this post (position_x pose)
              (position_y pose) reset_distance _) as [post' r2].
  reflexivity.
Qed.

Lemma lost_pose_skips_one_layer_witness :
  nextPose flicker = Some at_origin /\
  isClearable service (getLayerName obstacle_layer) = true /\
  plugins (fst (clearExceptRegion service 2 ros flicker)) =
    [ static_layer; obstacle_layer;
      clearedExceptRegion voxel_layer 0 0 2 at_origin ] /\
  events (snd (clearExceptRegion service 2 ros flicker)) =
    [ Acquire (LayerMutex "local_costmap/obstacle_layer");
      Release (LayerMutex "local_costmap/obstacle_layer");
      Acquire (LayerMutex "voxel_layer");
      Release (LayerMutex "voxel_layer") ].
Proof.
  split; [reflexivity|]. split; [reflexivity|].
  rewrite (lost_pose_skips_one_layer service 2 ros flicker at_origin
             [static_layer] obstacle_layer [voxel_layer]
             eq_refl eq_refl eq_refl eq_refl).
  split; reflexivity.
Defined.



(** C10. The name matched against the allow-list is the part of the layer
    name after its last '/' when the name has a '/', and the whole name when
    it has none. *)
Theorem getLayerName_trailing_segment (layer : CostmapLayer) :
  (StdString.contains "/" (getName layer) = true ->
   exists pre,
     getName layer = (pre ++ "/" ++ getLayerName layer)%string /\
     StdString.contains "/" (getLayerName layer) = false) /\
  (StdString.contains "/" (getName layer) = false ->
   getLayerName layer = getName layer).
Proof.
  unfold getLayerName.
  destruct (StdString.rfind "/" (getName layer)) as [slash|] eqn:E.
  - split.
    + intros _. rewrite Nat.add_1_r.
      destruct (StdStringFacts.rfind_Some _ _ _ E) as (pre & Hname & _ & Hno).
      exists pre. split; [exact Hname | exact Hno].
    + intros Hno. apply StdStringFacts.rfind_None in Hno. congruence.
  - split.
    + intros Hyes. apply StdStringFacts.rfind_None in E. congruence.
    + reflexivity.
Qed.

Lemma getLayerName_trailing_segment_witness :
  getLayerName obstacle_layer = "obstacle_layer" /\
  getLayerName voxel_layer = "voxel_layer" /\
  exists pre,
    getName obstacle_layer = (pre ++ "/" ++ getLayerName obstacle_layer)%string /\
    StdString.contains "/" (getLayerName obstacle_layer) = false.
Proof.
  split; [reflexivity|]. split; [reflexivity|].
  exact (proj1 (getLayerName_trailing_segment obstacle_layer) eq_refl).
Defined.

(** * Further properties of the service *)

(** ** Layer names *)

Module LayerNameFacts.
Import StdString.

Lemma rfind_last (c : ascii) (pre suf : string) :
  contains c suf = false ->
  rfind c (pre ++ String c suf) = Some (String.length pre).
Proof.
  intros Hno. induction pre as [|a pre IH]; simpl.
  - apply StdStringFacts.rfind_None in Hno. rewrite Hno.
    now rewrite Ascii.eqb_refl.
  - now rewrite IH.
Qed.

Lemma substr_after (c : ascii) (pre suf : string) :
  substr (pre ++ String c suf) (S (String.length pre)) = suf.
Proof.
  induction pre as [|a pre IH]; simpl.
  - now destruct suf.
  - exact IH.
Qed.

(** No separator is left in the name the filter matches. *)
Lemma getLayerName_no_slash (layer : CostmapLayer) :
  contains "/" (getLayerName layer) = false.
Proof.
  unfold getLayerName.
  destruct (rfind "/" (getName layer)) as [slash|] eqn:E.
  - rewrite Nat.add_1_r.
    now destruct (StdStringFacts.rfind_Some _ _ _ E) as (_ & _ & _ & Hno).
  - now apply StdStringFacts.rfind_None.
Qed.

End LayerNameFacts.

(** ** Runs in which the filter lets no layer through *)

Section NothingSelected.

Context {engine : GridEngine}.
Variable this : ClearCostmapService.

Lemma selected_none (layers : list CostmapLayer) :
  (forall l, In l layers -> isClearable this (getLayerName l) = false) ->
  selected this layers = [].
Proof.
  intros Hnone. induction layers as [|l rest IH]; simpl; [reflexivity|].
  rewrite (Hnone l (or_introl eq_refl)). apply IH.
  intros l' Hin. apply Hnone. now right.
Qed.

Lemma loopResult_none (layers : list CostmapLayer) (x y d : Q)
    (answers : list (option PoseStamped)) :
  (forall l, In l layers -> isClearable this (getLayerName l) = false) ->
  loopResult this layers x y d answers = layers.
Proof.
  intros Hnone. induction layers as [|l rest IH]; simpl; [reflexivity|].
  rewrite (Hnone l (or_introl eq_refl)). f_equal. apply IH.
  intros l' Hin. apply Hnone. now right.
Qed.

Lemma clearExceptRegion_none (reset_distance : Q) (ros : Costmap2DROS)
    (r : Runtime) :
  (forall l, In l (plugins ros) -> isClearable this (getLayerName l) = false) ->
  clearExceptRegion this reset_distance ros r =
  (ros,
   match nextPose r with
   | Some _ => mkRuntime (tl (pose_source r)) (events r)
   | None => mkRuntime (tl (pose_source r)) (events r ++ [LogError pose_error])
   end).
Proof.
  intros Hnone. destruct r as [answers ev]. destruct ros as [m layers].
  unfold clearExceptRegion, getPosition, nextPose, bind, getRobotPose,
    RCLCPP_ERROR, emit, ret. simpl in *.
  destruct answers as [|[pose|] rest]; simpl; try reflexivity.
  rewrite clearLayersExceptRegion_run. simpl.
  rewrite loopResult_none, selected_none by exact Hnone.
  simpl. now rewrite app_nil_r.
Qed.

Lemma Serial_visits (layers : list CostmapLayer) :
  Serial (flat_map visit layers).
Proof.
  induction layers as [|l rest IH]; simpl; now constructor.
Qed.

End NothingSelected.

(** ** The extras *)

(** X1. How often each operation asks for the robot pose. [clearEntirely]
    never asks. [clearAroundRobot] asks once. [clearExceptRegion] asks
    once at its start and, when that succeeds, once more for every layer the
    filter lets through, whatever those later answers are. *)
Theorem pose_queries {engine : GridEngine} (this : ClearCostmapService)
    (reset_distance wx wy : Q) (ros : Costmap2DROS) (r : Runtime) :
  pose_source (snd (clearEntirely ros r)) = pose_source r /\
  pose_source (snd (clearAroundRobot this wx wy ros r)) = skipn 1 (pose_source r) /\
  pose_source (snd (clearExceptRegion this reset_distance ros r)) =
    match nextPose r with
    | None => skipn 1 (pose_source r)
    | Some _ =>
        skipn (1 + List.length
                     (filter (fun l => isClearable this (getLayerName l))
                             (plugins ros)))
              (pose_source r)
    end.
Proof.
  destruct r as [answers ev].
  unfold clearEntirely, clearAroundRobot, clearExceptRegion, getPosition,
    nextPose, bind, getRobotPose, RCLCPP_ERROR, lock, unlock, emit, ret.
  simpl.
  split; [reflexivity|].
  destruct answers as [|[pose|] rest]; simpl; try (split; reflexivity).
  split; [reflexivity|].
  rewrite clearLayersExceptRegion_run. reflexivity.
Qed.

(** X2. Lock discipline. What any operation or callback adds to the record
    is serial: every mutex it takes is released before it takes another,
    logs, or returns, also on the early return of a failed pose re-check.
    So no operation ever holds two mutexes and none leaves one held. *)
Theorem operations_are_serial {engine : GridEngine}
    (this : ClearCostmapService) (reset_distance wx wy : Q)
    (ros : Costmap2DROS) (r : Runtime) :
  (exists added,
      events (snd (clearExceptRegionCallback this reset_distance ros r))
      = (events r ++ added)%list /\ Serial added) /\
  (exists added,
      events (snd (clearAroundRobotCallback this wx wy ros r))
      = (events r ++ added)%list /\ Serial added) /\
  (exists added,
      events (snd (clearAroundRobot this wx wy ros r))
      = (events r ++ added)%list /\ Serial added) /\
  (exists added,
      events (snd (clearEntireCallback ros r))
      = (events r ++ added)%list /\ Serial added).
Proof.
  assert (Hentire : exists added,
             events (snd (clearEntirely ros r)) = (events r ++ added)%list /\
             Serial added).
  { exists [Acquire MasterMutex; Release MasterMutex].
    unfold clearEntirely, bind, lock, unlock, emit, ret. simpl.
    rewrite <- app_assoc. split; [reflexivity | repeat constructor]. }
  assert (Haround : exists added,
             events (snd (clearAroundRobot this wx wy ros r))
             = (events r ++ added)%list /\ Serial added).
  { destruct r as [answers ev].
    unfold clearAroundRobot, getPosition, bind, getRobotPose, RCLCPP_ERROR,
      emit, ret. simpl.
    destruct answers as [|[pose|] rest]; simpl.
    - exists [LogError pose_error]. split; [reflexivity | repeat constructor].
    - exists []. rewrite app_nil_r. split; [reflexivity | constructor].
    - exists [LogError pose_error]. split; [reflexivity | repeat constructor]. }
  split; [|split; [|split; [exact Haround | exact Hentire]]].
  - unfold clearExceptRegionCallback. destruct r as [answers ev].
    unfold clearExceptRegion, getPosition, bind, getRobotPose, RCLCPP_ERROR,
      emit, ret. simpl.
    destruct answers as [|[pose|] rest]; simpl.
    + exists [LogError pose_error]. split; [reflexivity | repeat constructor].
    + rewrite clearLayersExceptRegion_run. simpl.
      eexists. split; [reflexivity | apply Serial_visits].
    + exists [LogError pose_error]. split; [reflexivity | repeat constructor].
  - unfold clearAroundRobotCallback.
    destruct (Qeq_bool wx 0 || Qeq_bool wy 0); [exact Hentire | exact Haround].
Qed.

(** X3. Which mutexes [clearExceptRegion] takes: only those of layers of
    the stack that the filter lets through. It never takes the master
    mutex and never the mutex of a layer outside the allow-list. *)
Theorem clearExceptRegion_locks_selected_layers {engine : GridEngine}
    (this : ClearCostmapService) (reset_distance : Q)
    (ros : Costmap2DROS) (r : Runtime) :
  exists added,
    events (snd (clearExceptRegion this reset_distance ros r))
    = (events r ++ added)%list /\
    Forall (fun e =>
              forall m, mutexOf e = Some m ->
                exists l,
                  In l (plugins ros) /\
                  isClearable this (getLayerName l) = true /\
                  m = LayerMutex (getName l))
           added.
Proof.
  destruct r as [answers ev].
  unfold clearExceptRegion, getPosition, bind, getRobotPose, RCLCPP_ERROR,
    emit, ret. simpl.
  destruct answers as [|[pose|] rest]; simpl;
    try (exists [LogError pose_error]; split; [reflexivity|];
         repeat constructor; simpl; discriminate).
  rewrite clearLayersExceptRegion_run. simpl.
  eexists. split; [reflexivity|].
  apply Forall_forall. intros e He m Hm.
  apply in_flat_map in He. destruct He as (l & Hl & He).
  apply filter_In in Hl. destruct Hl as [Hin Hok].
  exists l. repeat split; try assumption.
  destruct He as [<-|[<-|[]]]; simpl in Hm; congruence.
Qed.

(** X4. When the filter lets no layer of the stack through (an empty
    allow-list and an empty stack are such cases), [clearExceptRegion]
    changes nothing: the master grid and all layers are as before, no mutex
    is taken, and the only thing it may add to the record is the pose error
    of its first query, which is also the only query it makes. *)
Theorem clearExceptRegion_without_selection {engine : GridEngine}
    (this : ClearCostmapService) (reset_distance : Q)
    (ros : Costmap2DROS) (r : Runtime) :
  (forall l, In l (plugins ros) -> isClearable this (getLayerName l) = false) ->
  clearExceptRegion this reset_distance ros r =
  (ros,
   mkRuntime (skipn 1 (pose_source r))
             (events r ++
              match nextPose r with
              | Some _ => []
              | None => [LogError pose_error]
              end)).
Proof.
  intros Hnone. rewrite (clearExceptRegion_none this) by exact Hnone.
  destruct r as [[|[pose|] rest] ev]; unfold nextPose, getRobotPose; simpl;
    now rewrite ?app_nil_r.
Qed.

Lemma clearExceptRegion_without_selection_witness :
  clearExceptRegion (newClearCostmapService [] ros) 2 ros steady =
  (ros, mkRuntime (skipn 1 (pose_source steady)) []).
Proof.
  apply (clearExceptRegion_without_selection
           (newClearCostmapService [] ros) 2 ros steady).
  intros l _. reflexivity.
Defined.

(** X5. An allow-list entry that contains a '/' is dead: the name the
    filter matches never contains one, so no layer, however it is named,
    matches such an entry. With an allow-list made of namespaced names
    only, [clearExceptRegion] leaves the master grid and every layer as
    they were. *)
Theorem namespaced_entries_never_match {engine : GridEngine}
    (this : ClearCostmapService) (reset_distance : Q)
    (ros : Costmap2DROS) (r : Runtime) :
  Forall (fun entry => StdString.contains "/" entry = true)
         (clearable_layers_ this) ->
  (forall layer, isClearable this (getLayerName layer) = false) /\
  fst (clearExceptRegion this reset_distance ros r) = ros.
Proof.
  intros Hall.
  assert (Hnone : forall layer, isClearable this (getLayerName layer) = false).
  { intros layer.
    destruct (isClearable this (getLayerName layer)) eqn:E; [|reflexivity].
    apply isClearable_In in E.
    rewrite Forall_forall in Hall. specialize (Hall _ E).
    rewrite LayerNameFacts.getLayerName_no_slash in Hall. discriminate. }
  split; [exact Hnone|].
  rewrite (clearExceptRegion_none this); [reflexivity|].
  intros l _. apply Hnone.
Qed.

Lemma namespaced_entries_never_match_witness :
  isClearable namespaced_service (getLayerName obstacle_layer) = false /\
  fst (clearExceptRegion namespaced_service 2 ros steady) = ros.
Proof.
  assert (H : Forall (fun entry => StdString.contains "/" entry = true)
                     (clearable_layers_ namespaced_service))
    by (repeat constructor).
  destruct (namespaced_entries_never_match namespaced_service 2 ros steady H)
    as [Hnone Hsame].
  split; [apply Hnone | exact Hsame].
Defined.

(** X6. However a layer name is split at a '/' that is followed by no
    other '/', the name the filter matches is what follows that '/': nested
    namespaces are dropped whole, and a name that ends in '/' is matched as
    the empty string. *)
Theorem getLayerName_of_path (layer : CostmapLayer) (namespace segment : string) :
  getName layer = (namespace ++ "/" ++ segment)%string ->
  StdString.contains "/" segment = false ->
  getLayerName layer = segment.
Proof.
  intros Hname Hno. unfold getLayerName. rewrite Hname.
  change ("/" ++ segment)%string with (String "/" segment).
  rewrite (LayerNameFacts.rfind_last _ _ _ Hno), Nat.add_1_r.
  apply LayerNameFacts.substr_after.
Qed.

Lemma getLayerName_of_path_witness :
  getLayerName unnamed_layer = "" /\
  getLayerName (layer4 "/robot1/local_costmap/voxel_layer" 0) = "voxel_layer".
Proof.
  split.
  - apply (getLayerName_of_path unnamed_layer "local_costmap" "");
      reflexivity.
  - apply (getLayerName_of_path _ "/robot1/local_costmap" "voxel_layer");
      reflexivity.
Defined.



(** X9. Which parts of which pose [clearExceptRegion] uses. The position
    is that of the first answer of the pose source, for every layer; the
    heading is that of each layer's own re-check. The heading of the first
    answer and the positions of the re-checks have no influence: two runs
    whose first answers agree on the position, and whose later answers agree
    on being available and on the heading, leave the same grids. *)
Theorem clearExceptRegion_pose_fields {engine : GridEngine}
    (this : ClearCostmapService) (reset_distance : Q) (ros : Costmap2DROS)
    (r r' : Runtime) (first first' : PoseStamped)
    (later later' : list (option PoseStamped)) :
  pose_source r = Some first :: later ->
  pose_source r' = Some first' :: later' ->
  position_x first = position_x first' ->
  position_y first = position_y first' ->
  Forall2 (fun a a' =>
             option_map yaw_of_orientation a = option_map yaw_of_orientation a')
          later later' ->
  fst (clearExceptRegion this reset_distance ros r)
  = fst (clearExceptRegion this reset_distance ros r').
Proof.
  intros Hr Hr' Hx Hy Hlater.
  destruct r as [answers ev]. destruct r' as [answers' ev'].
  simpl in Hr, Hr'. subst answers answers'.
  unfold clearExceptRegion, getPosition, bind, getRobotPose, ret. simpl.
  rewrite !clearLayersExceptRegion_run. simpl.
  rewrite <- Hx, <- Hy. f_equal.
  generalize (position_x first) (position_y first). intros x y.
  clear Hx Hy first first' ev ev'.
  revert later later' Hlater.
  induction (plugins ros) as [|l rest IH]; intros later later' Hlater;
    simpl; [reflexivity|].
  destruct (isClearable this (getLayerName l)).
  - destruct Hlater as [|a a' later later' Hyaw Hlater]; simpl.
    + reflexivity.
    + f_equal; [|now apply IH].
      unfold nextPose, getRobotPose. simpl.
      destruct a as [p|], a' as [p'|]; simpl in *; try discriminate;
        [|reflexivity].
      injection Hyaw as Hyaw. unfold clearedExceptRegion. now rewrite Hyaw.
  - f_equal. now apply IH.
Qed.

Lemma clearExceptRegion_pose_fields_witness :
  fst (clearExceptRegion service 2 ros
         (mkRuntime [Some at_origin; Some at_origin; Some at_origin] []))
  = fst (clearExceptRegion service 2 ros
           (mkRuntime [Some (mkPose 0 0 1); Some (mkPose 5 5 0);
                       Some (mkPose (-3) 9 0)] [])).
Proof.
  apply (clearExceptRegion_pose_fields service 2 ros _ _
           at_origin (mkPose 0 0 1)
           [Some at_origin; Some at_origin]
           [Some (mkPose 5 5 0); Some (mkPose (-3) 9 0)]);
    try reflexivity.
  repeat constructor.
Defined.

(** X10. A negative window size is not rejected. A ClearAroundRobot request
    with a negative width and a nonzero height is served by
    [clearAroundRobot], and the rectangle it builds is the one of the
    positive width with its corners listed in the opposite winding order. *)
Theorem negative_window_is_mirrored {engine : GridEngine}
    (this : ClearCostmapService) (window_size_x window_size_y : Q)
    (x y : Q) (ros : Costmap2DROS) (r : Runtime) :
  window_size_x < 0 ->
  ~ window_size_y == 0 ->
  clearAroundRobotCallback this window_size_x window_size_y ros r
  = clearAroundRobot this window_size_x window_size_y ros r /\
  exists c0 c1 c2 c3,
    windowPolygon x y (- window_size_x) window_size_y = [c0; c1; c2; c3] /\
    Forall2 Point_eq (windowPolygon x y window_size_x window_size_y)
            [c1; c0; c3; c2].
Proof.
  intros Hneg Hy. split.
  - unfold clearAroundRobotCallback.
    destruct (Qeq_bool window_size_x 0) eqn:Ex.
    + apply Qeq_bool_iff in Ex. rewrite Ex in Hneg. discriminate Hneg.
    + destruct (Qeq_bool window_size_y 0) eqn:Ey; [|reflexivity].
      apply Qeq_bool_iff in Ey. contradiction.
  - unfold windowPolygon. do 4 eexists. split; [reflexivity|].
    repeat constructor; simpl; field; repeat split; discriminate.
Qed.

Lemma negative_window_is_mirrored_witness :
  -2 < 0 /\ ~ 2 == 0 /\
  clearAroundRobotCallback service (-2) 2 ros steady
  = clearAroundRobot service (-2) 2 ros steady.
Proof.
  assert (Hneg : -2 < 0) by reflexivity.
  assert (Hy : ~ 2 == 0) by discriminate.
  split; [exact Hneg|]. split; [exact Hy|].
  exact (proj1 (negative_window_is_mirrored service (-2) 2 0 0 ros steady Hneg Hy)).
Defined.

(** X11. The services the constructor registers never share a name: the
    name determines both the request type and the costmap, so the three
    services of one costmap are distinct and so are the services of two
    costmaps with different names. *)
Theorem serviceName_injective (request request' : ClearRequest)
    (costmap_name costmap_name' : string) :
  serviceName request costmap_name = serviceName request' costmap_name' ->
  request = request' /\ costmap_name = costmap_name'.
Proof.
  intros H. destruct request, request'; simpl in H;
    split; congruence.
Qed.

Lemma serviceName_injective_witness :
  serviceName ClearAroundRobot "local_costmap" = "clear_around_local_costmap" /\
  ClearAroundRobot = ClearAroundRobot /\ "local_costmap" = "local_costmap".
Proof.
  split; [reflexivity|].
  exact (serviceName_injective ClearAroundRobot ClearAroundRobot
           "local_costmap" "local_costmap" eq_refl).
Defined.

(** X12. Which re-check belongs to which layer. After a successful first
    query, the layer at position [i] of the stack, if the filter lets it
    through, ends as the outcome of one visit under the k-th of the later
    answers, k being the number of layers before it that the filter let
    through (no answer left counts as a lost pose). So a lost re-check
    costs exactly the layer whose turn it was. *)
Theorem layer_takes_its_own_recheck {engine : GridEngine}
    (this : ClearCostmapService) (reset_distance : Q) (ros : Costmap2DROS)
    (r : Runtime) (first : PoseStamped) (later : list (option PoseStamped))
    (i : nat) (l : CostmapLayer) :
  pose_source r = Some first :: later ->
  nth_error (plugins ros) i = Some l ->
  isClearable this (getLayerName l) = true ->
  nth_error (plugins (fst (clearExceptRegion this reset_distance ros r))) i =
  Some (visited l (position_x first) (position_y first) reset_distance
          (nth (List.length
                  (filter (fun l' => isClearable this (getLayerName l'))
                          (firstn i (plugins ros))))
               later None)).
Proof.
  intros Hr Hi Hl. destruct r as [answers ev]. simpl in Hr. subst answers.
  unfold clearExceptRegion, getPosition, bind, getRobotPose, ret. simpl.
  rewrite clearLayersExceptRegion_run. simpl.
  generalize (position_x first) (position_y first). intros x y.
  revert i later Hi.
  induction (plugins ros) as [|l0 rest IH]; intros i later Hi.
  - destruct i; discriminate.
  - destruct i as [|i]; simpl in *.
    + injection Hi as ->. rewrite Hl. unfold nextPose, getRobotPose. simpl.
      now destruct later.
    + destruct (isClearable this (getLayerName l0)); simpl.
      * rewrite (IH i (tl later) Hi). do 2 f_equal.
        destruct later as [|a later]; simpl; [|reflexivity].
        now destruct (List.length _).
      * now apply IH.
Qed.

Lemma layer_takes_its_own_recheck_witness :
  nth_error (plugins (fst (clearExceptRegion service 2 ros flicker))) 1
    = Some obstacle_layer /\
  nth_error (plugins (fst (clearExceptRegion service 2 ros flicker))) 2
    = Some (clearedExceptRegion voxel_layer 0 0 2 at_origin).
Proof.
  split.
  - exact (layer_takes_its_own_recheck service 2 ros flicker at_origin
             [None; Some at_origin] 1 obstacle_layer eq_refl eq_refl eq_refl).
  - exact (layer_takes_its_own_recheck service 2 ros flicker at_origin
             [None; Some at_origin] 2 voxel_layer eq_refl eq_refl eq_refl).
Defined.
